(* A shallow embedding of the data-access layer of alpha-lens:
   - src/alphalens/data/unified_data_manager.py (UnifiedDataManager):
     pickle-file cache with age check, hit/miss counters, source selection
     and failover for historical bars, latest prices and options chains;
   - src/alphalens/data/polygon_feed.py (PolygonDataFeed._make_request and
     _enforce_rate_limit): rate limiting and retries against a simulated
     clock.

   Modelling choices.
   - Clock readings (datetime.now(), time.time()) are integers: microseconds
     for the cache, milliseconds for the Polygon feed.  Float ages in hours
     become exact rationals (Q); no rounding is modelled.
   - The cache directory is a finite map from file name to the pickled
     record {"data", "timestamp"}.
   - Upstream feeds are opaque: an environment gives, for each feed and
     argument list, either a returned value or a raised exception.
   - Python exceptions are an inductive [exn]; a call's result is
     [outcome A] (returned value or raised exception). *)

From Stdlib Require Import ZArith QArith Lia.
From stdpp Require Import base gmap strings list.

Local Open Scope Z_scope.

(* ------------------------------------------------------------------ *)
(** * Python values used by the data manager *)

(** One OHLCV row of a pandas DataFrame, reduced to the fields that
    matter here; a DataFrame is a list of rows and [df.empty] is
    [rows = []]. *)
Record bar := mk_bar {
  bar_symbol : string;
  bar_timestamp : Z;
  bar_close : Z
}.

Definition DataFrame := list bar.

Definition df_empty (d : DataFrame) : bool :=
  match d with [] => true | _ => false end.

(** A pandas Series of latest prices, indexed by symbol. *)
Definition Series := list (string * Z).

Inductive exn :=
  | RuntimeError (msg : string)
  | KeyError (key : string)
  | AttributeError (msg : string)
  | FeedError (msg : string)
  | RecursionError.

Inductive outcome (A : Type) :=
  | Ret (a : A)
  | Raise (e : exn).
Arguments Ret {A} a.
Arguments Raise {A} e.

Definition is_raise {A} (o : outcome A) : bool :=
  match o with Raise _ => true | Ret _ => false end.

(** The three feed classes the manager may hold. *)
Inductive feed := AlpacaFeed | PolygonFeed | YahooFeed.

(** What the pickled cache file holds: {"data": data, "timestamp": now}. *)
Record cache_record := mk_cache_record {
  cr_data : DataFrame;
  cr_timestamp : Z  (* datetime.now() in microseconds *)
}.

(** The fields of a [UnifiedDataManager] object, plus the cache
    directory's contents (the durable part of the state). *)
Record manager := mk_manager {
  cache_dir_exists : bool;
  enable_caching : bool;
  sources : gmap string (option feed);
  cache_files : gmap string cache_record;
  cache_hits : Z;
  cache_misses : Z
}.

Definition set_cache_files (m : manager) (fs : gmap string cache_record) : manager :=
  mk_manager (cache_dir_exists m) (enable_caching m) (sources m) fs
             (cache_hits m) (cache_misses m).

Definition incr_hits (m : manager) : manager :=
  mk_manager (cache_dir_exists m) (enable_caching m) (sources m) (cache_files m)
             (cache_hits m + 1) (cache_misses m).

Definition incr_misses (m : manager) : manager :=
  mk_manager (cache_dir_exists m) (enable_caching m) (sources m) (cache_files m)
             (cache_hits m) (cache_misses m + 1).

(** [self.sources.get(name)] used as a boolean: the key is present and the
    slot is not [None]. *)
Definition source_get (m : manager) (name : string) : option feed :=
  match sources m !! name with
  | Some (Some f) => Some f
  | _ => None
  end.

Definition source_available (m : manager) (name : string) : bool :=
  match source_get m name with Some _ => true | None => false end.

(* ------------------------------------------------------------------ *)
(** * The pickle cache: _save_to_cache and _load_from_cache *)

(** os.path.join(self.cache_dir, f"{key}.pkl"), relative to the cache
    directory. *)
Definition cache_path (key : string) : string := String.append key ".pkl".

Definition micros_per_hour : Z := 3600000000.

(** (datetime.now() - cache_data["timestamp"]).total_seconds() / 3600 *)
Definition age_hours (now ts : Z) : Q :=
  (inject_Z (now - ts) / inject_Z micros_per_hour)%Q.

(** [_save_to_cache]: a failing [open] (no cache directory) is caught and
    leaves the directory as it was. *)
Definition save_to_cache (key : string) (data : DataFrame) (now : Z)
    (m : manager) : manager :=
  if cache_dir_exists m
  then set_cache_files m (<[cache_path key := mk_cache_record data now]> (cache_files m))
  else m.

(** [_load_from_cache]: a missing file is a miss; a fresh record is
    returned; an expired one is removed with [os.remove] and is a miss. *)
Definition load_from_cache (key : string) (max_age_hours : Q) (now : Z)
    (m : manager) : option DataFrame * manager :=
  match cache_files m !! cache_path key with
  | None => (None, m)
  | Some r =>
      if Qle_bool (age_hours now (cr_timestamp r)) max_age_hours
      then (Some (cr_data r), m)
      else (None, set_cache_files m (delete (cache_path key) (cache_files m)))
  end.

(* ------------------------------------------------------------------ *)
(** * The manager's public operations *)

(** Upstream behaviour of the feeds: each call returns or raises. *)
Record env := mk_env {
  env_hist : feed -> list string -> string -> string -> string -> outcome DataFrame;
  env_prices : feed -> list string -> outcome Series;
  env_options : feed -> string -> string -> string -> string -> outcome DataFrame;
  (* constructor followed by connect(): raises, or returns *)
  env_init : string -> outcome unit
}.

(** Python truthiness of an optional string argument ([None] and [""]
    are false). *)
Definition truthy (s : option string) : option string :=
  match s with
  | Some x => if String.eqb x "" then None else Some x
  | None => None
  end.

(** f"hist_{'-'.join(symbols)}_{start.date()}_{end.date()}_{timeframe}";
    dates are passed already rendered as by [date.__str__]. *)
Definition hist_cache_key (symbols : list string) (start end_ timeframe : string)
    : string :=
  String.append "hist_"
   (String.append (String.concat "-" symbols)
    (String.append "_" (String.append start
     (String.append "_" (String.append end_
      (String.append "_" timeframe)))))).

(** [str(x)] of an optional argument: [None] prints as "None". *)
Definition py_str_opt (x : option string) : string :=
  match x with Some s => s | None => "None" end.

Definition options_cache_key (underlying : string) (expiration strike otype : option string)
    : string :=
  String.append "options_"
   (String.append underlying
    (String.append "_" (String.append (py_str_opt expiration)
     (String.append "_" (String.append (py_str_opt strike)
      (String.append "_" (py_str_opt otype))))))).

Definition hist_max_age_hours : Q := 24%Q.
Definition options_max_age_hours : Q := Qmake 83 1000.  (* 0.083 h, "5 minutes" *)

(** The feed call inside the [try]: [self.sources[selected_source]] raises
    KeyError for an unknown name, and a [None] slot raises AttributeError. *)
Definition call_source {A} (m : manager) (s : string) (call : feed -> outcome A)
    : outcome A :=
  match sources m !! s with
  | None => Raise (KeyError s)
  | Some None => Raise (AttributeError "'NoneType' object has no attribute")
  | Some (Some f) => call f
  end.

Section Operations.
Variable E : env.
Variable now : Z.

(** [get_historical_data]; the only recursive call is the failover from
    polygon to yahoo, which cannot recurse again, so one unit of fuel is
    enough (see [get_historical_data]). *)
Fixpoint get_historical_data_go (fuel : nat) (m : manager) (symbols : list string)
    (start end_ timeframe : string) (source : option string)
    : outcome DataFrame * manager :=
  let cache_key := hist_cache_key symbols start end_ timeframe in
  let '(cached, m1) :=
    if enable_caching m then load_from_cache cache_key hist_max_age_hours now m
    else (None, m) in
  match cached with
  | Some d => (Ret d, incr_hits m1)
  | None =>
    let m2 := incr_misses m1 in
    let selected :=
      match truthy source with
      | Some s => Some s
      | None =>
          if source_available m2 "polygon" then Some "polygon"%string
          else if source_available m2 "yahoo" then Some "yahoo"%string
          else None
      end in
    match selected with
    | None => (Raise (RuntimeError "No data sources available"), m2)
    | Some sel =>
      match call_source m2 sel (fun f => E.(env_hist) f symbols start end_ timeframe) with
      | Ret data =>
          (Ret data,
           if enable_caching m2 && negb (df_empty data)
           then save_to_cache cache_key data now m2 else m2)
      | Raise _ =>
          if String.eqb sel "polygon" && source_available m2 "yahoo" then
            match fuel with
            | O => (Raise RecursionError, m2)
            | S fuel' =>
                get_historical_data_go fuel' m2 symbols start end_ timeframe
                  (Some "yahoo"%string)
            end
          else (Ret [], m2)
      end
    end
  end.

Definition get_historical_data := get_historical_data_go 1.

(** [get_latest_prices]: alpaca, then polygon, then yahoo; no cache and no
    counters. Two levels of failover, so two units of fuel. *)
Fixpoint get_latest_prices_go (fuel : nat) (m : manager) (symbols : list string)
    (source : option string) : outcome Series :=
  let selected :=
    match truthy source with
    | Some s => Some s
    | None =>
        if source_available m "alpaca" then Some "alpaca"%string
        else if source_available m "polygon" then Some "polygon"%string
        else if source_available m "yahoo" then Some "yahoo"%string
        else None
    end in
  match selected with
  | None => Raise (RuntimeError "No data sources available")
  | Some sel =>
    match call_source m sel (fun f => E.(env_prices) f symbols) with
    | Ret prices => Ret prices
    | Raise _ =>
        let next :=
          if String.eqb sel "alpaca" && source_available m "polygon"
          then Some "polygon"%string
          else if String.eqb sel "polygon" && source_available m "yahoo"
          then Some "yahoo"%string
          else None in
        match next with
        | None => Ret []
        | Some s =>
            match fuel with
            | O => Raise RecursionError
            | S fuel' => get_latest_prices_go fuel' m symbols (Some s)
            end
        end
    end
  end.

Definition get_latest_prices := get_latest_prices_go 2.

(** [get_options_chain] (Polygon only, 5-minute cache). *)
Definition get_options_chain (m : manager) (underlying : string)
    (expiration strike otype : option string) : outcome DataFrame * manager :=
  match source_get m "polygon" with
  | None => (Raise (RuntimeError "Polygon is required for options data"), m)
  | Some _ =>
    let cache_key := options_cache_key underlying expiration strike otype in
    let '(cached, m1) :=
      if enable_caching m then load_from_cache cache_key options_max_age_hours now m
      else (None, m) in
    match cached with
    | Some d => (Ret d, incr_hits m1)
    | None =>
      let m2 := incr_misses m1 in
      match call_source m2 "polygon" (fun f => E.(env_options) f underlying
                                          (py_str_opt expiration) (py_str_opt strike)
                                          (py_str_opt otype)) with
      | Ret chain =>
          (Ret chain,
           if enable_caching m2 && negb (df_empty chain)
           then save_to_cache cache_key chain now m2 else m2)
      | Raise _ => (Ret [], m2)
      end
    end
  end.

End Operations.

(** [get_cache_stats]: hits, misses and total; the hit rate is a float and
    is left out. *)
Record cache_stats := mk_cache_stats {
  stat_hits : Z;
  stat_misses : Z;
  stat_total : Z
}.

Definition get_cache_stats (m : manager) : cache_stats :=
  mk_cache_stats (cache_hits m) (cache_misses m) (cache_hits m + cache_misses m).

(** [clear_cache]: removes every file of the cache directory, if it
    exists; nothing else. *)
Definition clear_cache (m : manager) : manager :=
  if cache_dir_exists m then set_cache_files m ∅ else m.

(** [__init__]: a source slot is [None] when no credentials are given or
    when its constructor or [connect()] raises ([PolygonDataFeed.connect]
    catches its own errors and returns [False], which leaves the slot
    set). The cache directory is created ([os.makedirs]) when caching is
    enabled, and starts empty. *)
Definition init_slot (E : env) (name : string) (configured : bool) : option feed -> option feed :=
  fun f =>
    if configured then
      match env_init E name with Ret _ => f | Raise _ => None end
    else None.

Definition init_manager (E : env) (alpaca_key alpaca_secret polygon_key : option string)
    (enable_caching_ : bool) : manager :=
  let has x := match truthy x with Some _ => true | None => false end in
  let srcs : gmap string (option feed) :=
    <["yahoo" := init_slot E "yahoo" true (Some YahooFeed)]>
    (<["polygon" := init_slot E "polygon" (has polygon_key) (Some PolygonFeed)]>
    (<["alpaca" := init_slot E "alpaca" (has alpaca_key && has alpaca_secret)
                     (Some AlpacaFeed)]> ∅)) in
  mk_manager enable_caching_ enable_caching_ srcs ∅ 0 0.

(* ------------------------------------------------------------------ *)
(** * PolygonDataFeed: rate limiting and retries on a simulated clock *)

Module Polygon.

(** An HTTP exchange as seen by [session.get]: a response with a status
    code and a body ([None] when [response.json()] raises), or a
    transport-level exception (timeout, connection error). *)
Inductive response :=
  | Resp (status : Z) (json : option string)
  | TransportError.

(** Observable events, in order: an admission check (the start of
    [_enforce_rate_limit]), an HTTP attempt ([session.get]), a sleep. *)
Inductive event :=
  | EvAdmit (t : Z)
  | EvGet (t : Z)
  | EvSleep (ms : Z).

(** The feed's rate-limit fields, the clock (time.time() in ms), the
    scripted upstream answers and the event trace. *)
Record sim := mk_sim {
  clock : Z;
  tier : string;
  call_timestamps : list Z;
  upstream : list response;
  trace : list event
}.

(** self.rate_limits.get(tier, 5) *)
Definition rate_limits (t : string) : Z :=
  if String.eqb t "free" then 5
  else if String.eqb t "starter" then 100
  else if String.eqb t "developer" then 1000
  else if String.eqb t "advanced" then 10000
  else 5.

Definition calls_per_minute (s : sim) : Z := rate_limits (tier s).

(** A state monad over [sim], with stdpp's monad notation. *)
Definition St (A : Type) : Type := sim -> A * sim.

#[global] Instance St_ret : MRet St := fun A a s => (a, s).
#[global] Instance St_bind : MBind St :=
  fun A B f m s => let '(a, s') := m s in f a s'.

Definition modify (f : sim -> sim) : St unit := fun s => (tt, f s).

Definition log (e : event) : St unit :=
  modify (fun s => mk_sim (clock s) (tier s) (call_timestamps s) (upstream s)
                          (trace s ++ [e])).

(** time.time() *)
Definition time_now : St Z := fun s => (clock s, s).

(** time.sleep(ms) *)
Definition sleep (ms : Z) : St unit :=
  fun s => (tt, mk_sim (clock s + ms) (tier s) (call_timestamps s) (upstream s)
                       (trace s ++ [EvSleep ms])).

Definition set_timestamps (ts : list Z) : St unit :=
  modify (fun s => mk_sim (clock s) (tier s) ts (upstream s) (trace s)).

(** self.call_timestamps.append(t) *)
Definition record_call (t : Z) : St unit :=
  modify (fun s => mk_sim (clock s) (tier s) (call_timestamps s ++ [t])
                          (upstream s) (trace s)).

(** session.get(url, ...): the next scripted answer; when the script is
    exhausted the transport fails. *)
Definition session_get : St response :=
  fun s =>
    let '(r, rest) := match upstream s with
                      | [] => (TransportError, [])
                      | r :: rest => (r, rest)
                      end in
    (r, mk_sim (clock s) (tier s) (call_timestamps s) rest
               (trace s ++ [EvGet (clock s)])).

Definition in_window (now t : Z) : bool := bool_decide (now - t < 60000).

(** [_enforce_rate_limit] *)
Definition enforce_rate_limit : St unit :=
  now ← time_now;
  log (EvAdmit now);;
  s ← (fun s => (s, s));
  let ts := filter (in_window now) (call_timestamps s) in
  set_timestamps ts;;
  if bool_decide (calls_per_minute s <= Z.of_nat (length ts)) then
    match ts with
    | [] => mret tt   (* min([]) would raise; unreachable: calls_per_minute >= 5 *)
    | t0 :: rest =>
        let oldest := fold_left Z.min rest t0 in
        let wait_time := 60000 - (now - oldest) in
        if bool_decide (0 < wait_time) then sleep (wait_time + 100) else mret tt
    end
  else mret tt.

(** The body of [for attempt in range(retries)]; [remaining] is
    [retries - attempt]. The result is the response JSON or [None]. *)
Fixpoint attempt_loop (retries attempt remaining : nat) : St (option string) :=
  match remaining with
  | O => mret None
  | S rem =>
    r ← session_get;
    match r with
    | TransportError =>
        if bool_decide (attempt < retries - 1)%nat
        then sleep (1000 * 2 ^ Z.of_nat attempt);; attempt_loop retries (S attempt) rem
        else mret None
    | Resp code json =>
        t ← time_now;
        record_call t;;
        if bool_decide (code = 200) then
          match json with
          | Some j => mret (Some j)
          | None =>   (* response.json() raised: the except branch *)
              if bool_decide (attempt < retries - 1)%nat
              then sleep (1000 * 2 ^ Z.of_nat attempt);; attempt_loop retries (S attempt) rem
              else mret None
          end
        else if bool_decide (code = 429) then
          sleep 60000;; attempt_loop retries (S attempt) rem
        else if bool_decide (500 <= code) then
          sleep (1000 * 2 ^ Z.of_nat attempt);; attempt_loop retries (S attempt) rem
        else mret None
    end
  end.

(** [_make_request(url, params, retries)] *)
Definition make_request (retries : nat) : St (option string) :=
  enforce_rate_limit;;
  attempt_loop retries 0 retries.

(** Number of recorded call timestamps in the trailing 60 s window at the
    current clock. *)
Definition window_count (s : sim) : nat :=
  length (filter (in_window (clock s)) (call_timestamps s)).

Definition is_get (e : event) : bool := match e with EvGet _ => true | _ => false end.
Definition is_admit (e : event) : bool := match e with EvAdmit _ => true | _ => false end.

Definition count_gets (es : list event) : nat := length (filter is_get es).
Definition count_admits (es : list event) : nat := length (filter is_admit es).

End Polygon.

(* ------------------------------------------------------------------ *)
(** * More of UnifiedDataManager: crypto data, sources, hit rate *)

(** Upstream behaviour of [PolygonDataFeed.get_crypto_data]
    (from, to, start, end, timeframe). *)
Definition crypto_env := feed -> string -> string -> string -> string -> string ->
                         outcome DataFrame.

(** f"crypto_{from_currency}{to_currency}_{start.date()}_{end.date()}_{timeframe}" *)
Definition crypto_cache_key (from_currency to_currency start end_ timeframe : string)
    : string :=
  String.append "crypto_"
   (String.append from_currency (String.append to_currency
    (String.append "_" (String.append start
     (String.append "_" (String.append end_
      (String.append "_" timeframe))))))).

Definition crypto_max_age_hours : Q := 1%Q.

(** [get_crypto_data] (Polygon only, 1-hour cache). *)
Definition get_crypto_data (C : crypto_env) (now : Z) (m : manager)
    (from_currency to_currency start end_ timeframe : string)
    : outcome DataFrame * manager :=
  match source_get m "polygon" with
  | None => (Raise (RuntimeError "Polygon is required for crypto data"), m)
  | Some _ =>
    let cache_key := crypto_cache_key from_currency to_currency start end_ timeframe in
    let '(cached, m1) :=
      if enable_caching m then load_from_cache cache_key crypto_max_age_hours now m
      else (None, m) in
    match cached with
    | Some d => (Ret d, incr_hits m1)
    | None =>
      let m2 := incr_misses m1 in
      match call_source m2 "polygon"
              (fun f => C f from_currency to_currency start end_ timeframe) with
      | Ret data =>
          (Ret data,
           if enable_caching m2 && negb (df_empty data)
           then save_to_cache cache_key data now m2 else m2)
      | Raise _ => (Ret [], m2)
      end
    end
  end.

(** [get_available_sources]: the names whose slot is not [None]. The
    Python list follows the dict's insertion order; the model keeps the
    names, not their order. *)
Definition get_available_sources (m : manager) : list string :=
  omap (fun '(name, slot) => match slot with Some _ => Some name | None => None end)
       (map_to_list (sources m)).

(** The "hit_rate" entry of [get_cache_stats]:
    cache_hits / total_requests if total_requests > 0 else 0. *)
Definition cache_hit_rate (m : manager) : Q :=
  let total := cache_hits m + cache_misses m in
  if Z.ltb 0 total then (inject_Z (cache_hits m) / inject_Z total)%Q else 0%Q.

(** Sample environments and managers used by the concrete checks below. *)
Definition all_fail_env : env :=
  mk_env (fun _ _ _ _ _ => Raise (FeedError "HTTP 500"))
         (fun _ _ => Raise (FeedError "HTTP 500"))
         (fun _ _ _ _ _ => Raise (FeedError "HTTP 500"))
         (fun _ => Ret tt).

(** Yahoo only (no Alpaca or Polygon credentials). *)
Definition yahoo_only_manager : manager :=
  init_manager all_fail_env None None None true.

(** Polygon and Yahoo. *)
Definition polygon_yahoo_manager : manager :=
  init_manager all_fail_env None None (Some "pk_test"%string) true.

(** All three sources. *)
Definition all_sources_manager : manager :=
  init_manager all_fail_env (Some "ak_test"%string) (Some "sk_test"%string)
    (Some "pk_test"%string) true.

(** Every feed answers with one bar (or one price). *)
Definition one_bar_env : env :=
  mk_env (fun _ _ _ _ _ => Ret [mk_bar "AAPL" 0 190])
         (fun _ _ => Ret [("AAPL", 190)]%string)
         (fun _ _ _ _ _ => Ret [mk_bar "AAPL" 0 190])
         (fun _ => Ret tt).

(** Alpaca and Yahoo, no Polygon. *)
Definition alpaca_yahoo_manager : manager :=
  init_manager all_fail_env (Some "ak_test"%string) (Some "sk_test"%string) None true.

(** [m'] has the cache directory of [m], or that directory without the
    file of [key], which held a record already expired at [now]. *)
Definition evicted_or_same (key : string) (now : Z) (m m' : manager) : Prop :=
  cache_files m' = cache_files m \/
  (cache_files m' = delete (cache_path key) (cache_files m) /\
   exists r, cache_files m !! cache_path key = Some r /\
             Qle_bool (age_hours now (cr_timestamp r)) hist_max_age_hours = false).

(* ================================================================== *)
(** * Properties *)

(** ** Helper facts *)

Lemma age_hours_mono (a b ts : Z) :
  a <= b -> (age_hours a ts <= age_hours b ts)%Q.
Proof.
  intros Hab. unfold age_hours, Qdiv.
  apply Qmult_le_compat_r.
  - rewrite <- Zle_Qle. lia.
  - apply Qinv_le_0_compat. unfold micros_per_hour, Qle. simpl. lia.
Qed.

Lemma string_length_append (a b : string) :
  String.length (String.append a b) = (String.length a + String.length b)%nat.
Proof. induction a as [|c a IH]; simpl; [reflexivity | now rewrite IH]. Qed.

Lemma string_append_cancel_r (a b c : string) :
  String.append a c = String.append b c -> a = b.
Proof.
  intros H.
  assert (Hlen : String.length a = String.length b).
  { apply (f_equal String.length) in H.
    rewrite !string_length_append in H. lia. }
  revert b H Hlen.
  induction a as [|x a IH]; intros [|y b] H Hlen; simpl in *; try discriminate.
  - reflexivity.
  - injection H as -> H. f_equal. apply IH; [exact H | lia].
Qed.

Lemma string_append_cancel_l (a b c : string) :
  String.append c a = String.append c b -> a = b.
Proof.
  induction c as [|x c IH]; simpl; intros H; [exact H|].
  injection H as H. exact (IH H).
Qed.

(** A lookup that missed misses again at the same instant. *)
Lemma load_from_cache_miss_again (key : string) (h : Q) (now : Z) (m : manager) :
  fst (load_from_cache key h now m) = None ->
  fst (load_from_cache key h now (incr_misses (snd (load_from_cache key h now m)))) = None.
Proof.
  unfold load_from_cache. destruct (cache_files m !! cache_path key) as [r|] eqn:Hr; simpl.
  - destruct (Qle_bool _ _) eqn:Hq; simpl; [discriminate|].
    intros _. rewrite lookup_delete_eq. reflexivity.
  - intros _. rewrite Hr. reflexivity.
Qed.

(** ** C1: a lookup never serves an expired entry *)

(** C1. [_load_from_cache] returns data only from a stored record whose age
    is at most [max_age_hours] (and then leaves the directory alone); a
    record older than that is a miss and its file is removed. *)
Theorem load_from_cache_never_stale (m : manager) (key : string) (max_age : Q) (now : Z) :
  (forall d m',
     load_from_cache key max_age now m = (Some d, m') ->
     exists r, cache_files m !! cache_path key = Some r /\ cr_data r = d /\
               (age_hours now (cr_timestamp r) <= max_age)%Q /\ m' = m) /\
  (forall r,
     cache_files m !! cache_path key = Some r ->
     (max_age < age_hours now (cr_timestamp r))%Q ->
     load_from_cache key max_age now m =
       (None, set_cache_files m (delete (cache_path key) (cache_files m))) /\
     cache_files (set_cache_files m (delete (cache_path key) (cache_files m)))
       !! cache_path key = None).
Proof.
  unfold load_from_cache. split.
  - intros d m' H.
    destruct (cache_files m !! cache_path key) as [r|] eqn:Hr; [|discriminate].
    destruct (Qle_bool _ _) eqn:Hq; [|discriminate].
    injection H as <- <-. exists r. repeat split; auto.
    now apply Qle_bool_iff.
  - intros r Hr Hlt. rewrite Hr.
    destruct (Qle_bool _ _) eqn:Hq.
    + apply Qle_bool_iff in Hq. exfalso. exact (Qlt_not_le _ _ Hlt Hq).
    + split; [reflexivity|]. simpl. apply lookup_delete_eq.
Qed.

Lemma load_from_cache_never_stale_witness :
  let m := mk_manager true true ∅
             {[ cache_path "hist_AAPL" := mk_cache_record [] 0 ]} 0 0 in
  (24 < age_hours (25 * micros_per_hour) 0)%Q /\
  load_from_cache "hist_AAPL" 24 (25 * micros_per_hour) m =
    (None, set_cache_files m (delete (cache_path "hist_AAPL") (cache_files m))).
Proof.
  intros m. split; [vm_compute; reflexivity|].
  apply (proj2 (load_from_cache_never_stale m "hist_AAPL" 24 (25 * micros_per_hour))
           (mk_cache_record [] 0)); [reflexivity | vm_compute; reflexivity].
Defined.

(** ** C4: cache keys of historical requests *)

(** C4 (counterexample). The same symbol set listed in two orders, with
    the same dates and timeframe, yields two different cache keys. *)
Lemma hist_cache_key_order_counterexample :
  ["AAPL"; "MSFT"]%string ≡ₚ ["MSFT"; "AAPL"]%string /\
  hist_cache_key ["AAPL"; "MSFT"] "2024-01-02" "2024-06-28" "1Day" <>
  hist_cache_key ["MSFT"; "AAPL"] "2024-01-02" "2024-06-28" "1Day".
Proof.
  split; [apply Permutation_swap|].
  intros H. vm_compute in H. discriminate H.
Qed.

(** C4 (amended). For the same start date, end date and timeframe, two
    requests get the same cache key exactly when their symbol lists,
    joined with "-" in the order given, are the same string. *)
Theorem hist_cache_key_same_iff_joined_symbols (syms1 syms2 : list string)
    (start end_ timeframe : string) :
  hist_cache_key syms1 start end_ timeframe = hist_cache_key syms2 start end_ timeframe <->
  String.concat "-" syms1 = String.concat "-" syms2.
Proof.
  unfold hist_cache_key. split.
  - intros H. apply string_append_cancel_l in H.
    exact (string_append_cancel_r _ _ _ H).
  - intros ->. reflexivity.
Qed.

Lemma hist_cache_key_same_iff_joined_symbols_witness :
  String.concat "-" ["AAPL"; "MSFT"] = String.concat "-" ["AAPL"; "MSFT"] /\
  hist_cache_key ["AAPL"; "MSFT"] "2024-01-02" "2024-06-28" "1Day" =
  hist_cache_key ["AAPL"; "MSFT"] "2024-01-02" "2024-06-28" "1Day".
Proof.
  split; [reflexivity|].
  apply (proj2 (hist_cache_key_same_iff_joined_symbols ["AAPL"; "MSFT"] ["AAPL"; "MSFT"]
                  "2024-01-02" "2024-06-28" "1Day")).
  reflexivity.
Defined.

(** ** C8: clear_cache *)

(** C8 (code_bug). [clear_cache] only removes the cache files: the hit
    and miss counters reported by [get_cache_stats] are never reset. The
    concrete run follows [test_clear_cache] of the integration tests: a
    fresh manager with caching on fetches one symbol (one miss), then the
    cache is cleared; the files are gone but the statistics still report
    the miss, where the test expects both counters to be 0. *)
Theorem clear_cache_does_not_reset_stats :
  (forall m : manager, get_cache_stats (clear_cache m) = get_cache_stats m) /\
  let m0 := init_manager one_bar_env (Some "ak_test"%string) (Some "sk_test"%string)
              (Some "pk_test"%string) true in
  let m1 := snd (get_historical_data one_bar_env 0 m0 ["SPY"] "2024-06-23" "2024-06-28"
                   "1Day" None) in
  cache_files m1 <> ∅ /\
  cache_files (clear_cache m1) = ∅ /\
  get_cache_stats (clear_cache m1) = mk_cache_stats 0 1 1 /\
  get_cache_stats (clear_cache m1) <> mk_cache_stats 0 0 0.
Proof.
  split.
  - intros m. unfold clear_cache. destruct (cache_dir_exists m); reflexivity.
  - vm_compute. split; [|split; [reflexivity|split; [reflexivity|discriminate]]].
    intros H. discriminate H.
Qed.

(** ** C10: options chains without Polygon *)

(** The Polygon slot is empty after [__init__] exactly when no Polygon key
    was given or its constructor or [connect()] raised. *)
Lemma init_manager_polygon_none (E : env) (ak asec pk : option string) (ec : bool) :
  source_get (init_manager E ak asec pk ec) "polygon" = None <->
  truthy pk = None \/ is_raise (env_init E "polygon") = true.
Proof.
  unfold source_get, init_manager, init_slot. simpl.
  rewrite lookup_insert_ne by discriminate. rewrite lookup_insert_eq.
  destruct (truthy pk) as [k|]; simpl;
    [destruct (env_init E "polygon"); simpl; intuition congruence | intuition].
Qed.

(** C10. With no Polygon source, [get_options_chain] raises RuntimeError
    and leaves the manager exactly as it was: no cache lookup, no cache
    write, and the hit and miss counters unchanged. *)
Theorem get_options_chain_without_polygon (E : env) (now : Z) (m : manager)
    (underlying : string) (expiration strike otype : option string) :
  source_get m "polygon" = None ->
  get_options_chain E now m underlying expiration strike otype =
    (Raise (RuntimeError "Polygon is required for options data"), m) /\
  cache_hits (snd (get_options_chain E now m underlying expiration strike otype)) = cache_hits m /\
  cache_misses (snd (get_options_chain E now m underlying expiration strike otype)) = cache_misses m /\
  cache_files (snd (get_options_chain E now m underlying expiration strike otype)) = cache_files m.
Proof.
  intros H. unfold get_options_chain. rewrite H. simpl. auto.
Qed.

Lemma get_options_chain_without_polygon_witness :
  source_get yahoo_only_manager "polygon" = None /\
  get_options_chain all_fail_env 0 yahoo_only_manager "AAPL" None None None =
    (Raise (RuntimeError "Polygon is required for options data"), yahoo_only_manager).
Proof.
  split; [vm_compute; reflexivity|].
  apply (get_options_chain_without_polygon all_fail_env 0 yahoo_only_manager
           "AAPL" None None None).
  vm_compute; reflexivity.
Defined.

(** ** C3 and C9: historical data when every source fails *)

Lemma evicted_or_same_refl key now m : evicted_or_same key now m m.
Proof. now left. Qed.

Lemma evicted_or_same_trans key now m1 m2 m3 :
  evicted_or_same key now m1 m2 -> evicted_or_same key now m2 m3 ->
  evicted_or_same key now m1 m3.
Proof.
  intros [H12 | [H12 Hr12]] [H23 | [H23 Hr23]].
  - left. congruence.
  - rewrite H12 in H23, Hr23. right. auto.
  - right. rewrite H23. auto.
  - right. rewrite H23, H12, delete_delete_eq. split; [reflexivity|].
    exact Hr12.
Qed.

Lemma evicted_or_same_files key now m m' m'' :
  cache_files m'' = cache_files m' ->
  evicted_or_same key now m m' -> evicted_or_same key now m m''.
Proof. intros H [E1 | [E1 Hr]]; [left | right]; rewrite H; auto. Qed.

Lemma load_from_cache_evicted_or_same key now m :
  evicted_or_same key now m (snd (load_from_cache key hist_max_age_hours now m)).
Proof.
  unfold load_from_cache.
  destruct (cache_files m !! cache_path key) as [r|] eqn:Hr; [|apply evicted_or_same_refl].
  destruct (Qle_bool _ _) eqn:Hq; [apply evicted_or_same_refl|].
  right. split; [reflexivity|]. eauto.
Qed.

Lemma load_from_cache_sources key h now m :
  sources (snd (load_from_cache key h now m)) = sources m.
Proof.
  unfold load_from_cache. destruct (cache_files m !! _); [|reflexivity].
  destruct (Qle_bool _ _); reflexivity.
Qed.

Lemma load_from_cache_enable key h now m :
  enable_caching (snd (load_from_cache key h now m)) = enable_caching m.
Proof.
  unfold load_from_cache. destruct (cache_files m !! _); [|reflexivity].
  destruct (Qle_bool _ _); reflexivity.
Qed.

Lemma call_source_all_raise {A} (m : manager) (s : string) (call : feed -> outcome A) :
  (forall f, is_raise (call f) = true) -> is_raise (call_source m s call) = true.
Proof.
  intros H. unfold call_source.
  destruct (sources m !! s) as [[f|]|]; [apply H | reflexivity | reflexivity].
Qed.

Lemma source_available_sources m m' name :
  sources m' = sources m -> source_available m' name = source_available m name.
Proof. intros H. unfold source_available, source_get. now rewrite H. Qed.

(** The cache-check prefix shared by the operations. *)
Lemma cache_check_facts key now (m m1 : manager) (cached : option DataFrame) :
  (if enable_caching m then load_from_cache key hist_max_age_hours now m else (None, m))
    = (cached, m1) ->
  evicted_or_same key now m m1 /\ sources m1 = sources m /\
  enable_caching m1 = enable_caching m /\
  (cached = None -> enable_caching m = false \/ fst (load_from_cache key hist_max_age_hours now m) = None).
Proof.
  intros Hl. destruct (enable_caching m) eqn:Hc.
  - pose proof (load_from_cache_evicted_or_same key now m) as Hev.
    pose proof (load_from_cache_sources key hist_max_age_hours now m) as Hs.
    pose proof (load_from_cache_enable key hist_max_age_hours now m) as He.
    rewrite Hl in Hev, Hs, He. simpl in Hev, Hs, He.
    split; [exact Hev|]. split; [exact Hs|]. split; [congruence|].
    intros ->. right. now rewrite Hl.
  - injection Hl as <- <-.
    split; [apply evicted_or_same_refl|]. split; [reflexivity|]. split; [congruence|].
    intros _. now left.
Qed.
Lemma get_historical_data_go_failure_cache (E : env) (now : Z) (fuel : nat)
    (m : manager) (symbols : list string) (start end_ timeframe : string)
    (source : option string) :
  (forall f, is_raise (env_hist E f symbols start end_ timeframe) = true) ->
  evicted_or_same (hist_cache_key symbols start end_ timeframe) now m
    (snd (get_historical_data_go E now fuel m symbols start end_ timeframe source)).
Proof.
  intros Hall. revert m source.
  induction fuel as [|fuel IH]; intros m source; cbn [get_historical_data_go].
  all: destruct (if enable_caching m then _ else _) as [cached m1] eqn:Hl.
  all: destruct (cache_check_facts _ _ _ _ _ Hl) as (Hev & _ & _ & _).
  all: destruct cached as [d|]; [exact Hev|].
  all: assert (Hev2 : evicted_or_same (hist_cache_key symbols start end_ timeframe) now m
                        (incr_misses m1))
         by (eapply evicted_or_same_files; [reflexivity | exact Hev]).
  all: destruct (truthy source) as [s|];
       [| destruct (source_available (incr_misses m1) "polygon");
          [| destruct (source_available (incr_misses m1) "yahoo")]];
       cbv beta iota; try exact Hev2.
  all: lazymatch goal with
       | |- context [call_source ?mm ?sel _] =>
           pose proof (call_source_all_raise mm sel _ Hall) as Hr
       end.
  all: destruct (call_source _ _ _) as [data|e]; [discriminate Hr|].
  all: destruct (_ && _); [|exact Hev2].
  all: first [exact Hev2 | eapply evicted_or_same_trans; [exact Hev2 | apply IH]].
Qed.

Lemma qle_bool_age_later (now t ts : Z) (h : Q) :
  now <= t -> Qle_bool (age_hours now ts) h = false -> Qle_bool (age_hours t ts) h = false.
Proof.
  intros Hle Hf. destruct (Qle_bool (age_hours t ts) h) eqn:Ht; [|reflexivity].
  apply Qle_bool_iff in Ht.
  assert (Hn : (age_hours now ts <= h)%Q)
    by exact (Qle_trans _ _ _ (age_hours_mono now t ts Hle) Ht).
  apply Qle_bool_iff in Hn. congruence.
Qed.

(** C9. If every feed raises, [get_historical_data] writes no cache entry:
    every file left in the cache directory was there before with the same
    content, the files of other keys are untouched, and at any later
    instant a lookup of this request's key gives the same answer as it
    would have on the directory before the call. *)
Theorem get_historical_data_failure_leaves_cache (E : env) (now : Z) (m : manager)
    (symbols : list string) (start end_ timeframe : string) (source : option string) :
  (forall f, is_raise (env_hist E f symbols start end_ timeframe) = true) ->
  let key := hist_cache_key symbols start end_ timeframe in
  let m' := snd (get_historical_data E now m symbols start end_ timeframe source) in
  (forall p r, cache_files m' !! p = Some r -> cache_files m !! p = Some r) /\
  (forall p, p <> cache_path key -> cache_files m' !! p = cache_files m !! p) /\
  (forall t, now <= t ->
     fst (load_from_cache key hist_max_age_hours t m') =
     fst (load_from_cache key hist_max_age_hours t m)).
Proof.
  intros Hall. cbv zeta. unfold get_historical_data.
  destruct (get_historical_data_go_failure_cache E now 1 m symbols start end_ timeframe
              source Hall) as [Hsame | [Hdel [r [Hr Hexp]]]].
  - split; [|split].
    + intros p r. now rewrite Hsame.
    + intros p _. now rewrite Hsame.
    + intros t _. unfold load_from_cache. rewrite Hsame.
      destruct (cache_files m !! _); [destruct (Qle_bool _ _)|]; reflexivity.
  - split; [|split].
    + intros p r'. rewrite Hdel. intros Hp.
      apply lookup_delete_Some in Hp. tauto.
    + intros p Hp. rewrite Hdel. apply lookup_delete_ne. congruence.
    + intros t Ht. unfold load_from_cache.
      rewrite Hdel, lookup_delete_eq, Hr.
      rewrite (qle_bool_age_later now t _ _ Ht Hexp). reflexivity.
Qed.

Lemma get_historical_data_failure_leaves_cache_witness :
  (forall f, is_raise (env_hist all_fail_env f ["AAPL"] "2024-01-02" "2024-06-28" "1Day")
             = true) /\
  (forall p r,
     cache_files (snd (get_historical_data all_fail_env 0 polygon_yahoo_manager ["AAPL"]
                         "2024-01-02" "2024-06-28" "1Day" None)) !! p = Some r ->
     cache_files polygon_yahoo_manager !! p = Some r).
Proof.
  split; [intros f; reflexivity|].
  apply (get_historical_data_failure_leaves_cache all_fail_env 0 polygon_yahoo_manager
           ["AAPL"] "2024-01-02" "2024-06-28" "1Day" None).
  intros f; reflexivity.
Defined.

Lemma cache_check_miss key now (m m1 : manager) (cached : option DataFrame) :
  (enable_caching m = false \/ fst (load_from_cache key hist_max_age_hours now m) = None) ->
  (if enable_caching m then load_from_cache key hist_max_age_hours now m else (None, m))
    = (cached, m1) ->
  cached = None /\
  (enable_caching (incr_misses m1) = false \/
   fst (load_from_cache key hist_max_age_hours now (incr_misses m1)) = None).
Proof.
  intros Hmiss Hl. destruct (enable_caching m) eqn:Hc.
  - destruct Hmiss as [Hf | Hn]; [discriminate|].
    pose proof (load_from_cache_miss_again key hist_max_age_hours now m Hn) as Ha.
    rewrite Hl in Hn, Ha. simpl in Hn, Ha. split; [exact Hn | now right].
  - injection Hl as <- <-. split; [reflexivity|]. left. exact Hc.
Qed.

Lemma get_historical_data_go_failure_other (E : env) (now : Z) (fuel : nat) (m : manager)
    (symbols : list string) (start end_ timeframe s : string) :
  (forall f, is_raise (env_hist E f symbols start end_ timeframe) = true) ->
  (enable_caching m = false \/
   fst (load_from_cache (hist_cache_key symbols start end_ timeframe)
          hist_max_age_hours now m) = None) ->
  String.eqb s "" = false -> String.eqb s "polygon" = false ->
  fst (get_historical_data_go E now fuel m symbols start end_ timeframe (Some s)) = Ret [].
Proof.
  intros Hall Hmiss Hs1 Hs2.
  destruct fuel; cbn [get_historical_data_go];
  destruct (if enable_caching m then _ else _) as [cached m1] eqn:Hl;
  destruct (cache_check_miss _ _ _ _ _ Hmiss Hl) as [-> _];
  unfold truthy; rewrite Hs1; cbv beta iota;
  pose proof (call_source_all_raise (incr_misses m1) s _ Hall) as Hr;
  destruct (call_source _ _ _) as [data|e]; try discriminate Hr;
  rewrite Hs2; reflexivity.
Qed.

Lemma get_historical_data_go_failure_result (E : env) (now : Z) (fuel : nat) (m : manager)
    (symbols : list string) (start end_ timeframe : string) (source : option string) :
  (forall f, is_raise (env_hist E f symbols start end_ timeframe) = true) ->
  (enable_caching m = false \/
   fst (load_from_cache (hist_cache_key symbols start end_ timeframe)
          hist_max_age_hours now m) = None) ->
  (truthy source <> None \/ source_available m "polygon" = true \/
   source_available m "yahoo" = true) ->
  fst (get_historical_data_go E now (S fuel) m symbols start end_ timeframe source) = Ret [].
Proof.
  intros Hall Hmiss Hsrc. cbn [get_historical_data_go].
  destruct (if enable_caching m then _ else _) as [cached m1] eqn:Hl.
  destruct (cache_check_miss _ _ _ _ _ Hmiss Hl) as [-> Hmiss2].
  pose proof (cache_check_facts _ _ _ _ _ Hl) as (_ & Hs & _ & _).
  assert (Hav : forall n, source_available (incr_misses m1) n = source_available m n)
    by (intros n; apply source_available_sources; exact Hs).
  rewrite !Hav.
  assert (Hsel : exists sel,
             match truthy source with
             | Some s => Some s
             | None =>
                 if source_available m "polygon" then Some "polygon"%string
                 else if source_available m "yahoo" then Some "yahoo"%string else None
             end = Some sel).
  { destruct (truthy source) as [s|] eqn:Ht; [eauto|].
    destruct (source_available m "polygon"); [eauto|].
    destruct (source_available m "yahoo"); [eauto|].
    exfalso. destruct Hsrc as [H | [H | H]]; congruence. }
  destruct Hsel as [sel Hsel]. rewrite Hsel.
  pose proof (call_source_all_raise (incr_misses m1) sel _ Hall) as Hr.
  destruct (call_source _ _ _) as [data|e]; [discriminate Hr|].
  destruct (String.eqb sel "polygon" && source_available m "yahoo"); [|reflexivity].
  apply get_historical_data_go_failure_other; auto.
Qed.

Section LatestPricesFailure.
Variable E : env.
Variable m : manager.
Variable symbols : list string.
Hypothesis Hall : forall f, is_raise (env_prices E f symbols) = true.

Lemma prices_call_raise (s : string) :
  exists e, call_source m s (fun f => env_prices E f symbols) = Raise e.
Proof.
  pose proof (call_source_all_raise m s _ Hall) as Hr.
  destruct (call_source m s _) as [a|e]; [discriminate Hr | eauto].
Qed.

Lemma get_latest_prices_go_other (fuel : nat) (s : string) :
  String.eqb s "" = false -> String.eqb s "alpaca" = false ->
  String.eqb s "polygon" = false ->
  get_latest_prices_go E fuel m symbols (Some s) = Ret [].
Proof.
  intros H0 Ha Hp. destruct (prices_call_raise s) as [e He].
  destruct fuel; cbn [get_latest_prices_go]; unfold truthy; rewrite H0;
    cbv beta iota; rewrite He, Ha, Hp; reflexivity.
Qed.

Lemma get_latest_prices_go_polygon (fuel : nat) :
  get_latest_prices_go E (S fuel) m symbols (Some "polygon"%string) = Ret [].
Proof.
  destruct (prices_call_raise "polygon") as [e He].
  cbn [get_latest_prices_go truthy String.eqb Ascii.eqb Bool.eqb andb].
  rewrite He. cbn [String.eqb Ascii.eqb Bool.eqb andb].
  destruct (source_available m "yahoo"); [|reflexivity].
  apply get_latest_prices_go_other; reflexivity.
Qed.

Lemma get_latest_prices_go_alpaca (fuel : nat) :
  get_latest_prices_go E (S (S fuel)) m symbols (Some "alpaca"%string) = Ret [].
Proof.
  destruct (prices_call_raise "alpaca") as [e He].
  cbn [get_latest_prices_go truthy String.eqb Ascii.eqb Bool.eqb andb].
  rewrite He. cbn [String.eqb Ascii.eqb Bool.eqb andb].
  destruct (source_available m "polygon"); [apply get_latest_prices_go_polygon|].
  cbn [andb]. reflexivity.
Qed.

Lemma get_latest_prices_go_some (fuel : nat) (s : string) :
  String.eqb s "" = false ->
  get_latest_prices_go E (S (S fuel)) m symbols (Some s) = Ret [].
Proof.
  intros H0.
  destruct (String.eqb s "alpaca") eqn:Ha;
    [apply String.eqb_eq in Ha; subst s; apply get_latest_prices_go_alpaca|].
  destruct (String.eqb s "polygon") eqn:Hp;
    [apply String.eqb_eq in Hp; subst s; apply get_latest_prices_go_polygon|].
  apply get_latest_prices_go_other; assumption.
Qed.

Lemma get_latest_prices_failure_result (source : option string) :
  (truthy source <> None \/ source_available m "alpaca" = true \/
   source_available m "polygon" = true \/ source_available m "yahoo" = true) ->
  get_latest_prices E m symbols source = Ret [].
Proof.
  intros Hsrc. unfold get_latest_prices.
  destruct (truthy source) as [s|] eqn:Ht.
  - assert (Hs : String.eqb s "" = false /\ truthy (Some s) = Some s).
    { destruct source as [x|]; simpl in Ht; [|discriminate].
      destruct (String.eqb x "") eqn:Hx; [discriminate|].
      injection Ht as <-. simpl. rewrite Hx. auto. }
    destruct Hs as [H0 Hts].
    transitivity (get_latest_prices_go E 2 m symbols (Some s));
      [|apply get_latest_prices_go_some; exact H0].
    cbn [get_latest_prices_go]. rewrite Ht, Hts. reflexivity.
  - destruct (source_available m "alpaca") eqn:Ha.
    { transitivity (get_latest_prices_go E 2 m symbols (Some "alpaca"%string));
        [|apply get_latest_prices_go_alpaca].
      cbn [get_latest_prices_go]. rewrite Ht, Ha. reflexivity. }
    destruct (source_available m "polygon") eqn:Hp.
    { transitivity (get_latest_prices_go E 2 m symbols (Some "polygon"%string));
        [|apply get_latest_prices_go_polygon].
      cbn [get_latest_prices_go]. rewrite Ht, Ha, Hp. reflexivity. }
    destruct (source_available m "yahoo") eqn:Hy.
    { transitivity (get_latest_prices_go E 2 m symbols (Some "yahoo"%string));
        [|apply get_latest_prices_go_other; reflexivity].
      cbn [get_latest_prices_go]. rewrite Ht, Ha, Hp, Hy. reflexivity. }
    exfalso. destruct Hsrc as [H | [H | [H | H]]]; congruence.
Qed.

End LatestPricesFailure.

(** C3 (counterexample). With Polygon and Yahoo configured and both
    raising, [get_historical_data] returns an empty DataFrame as a normal
    result; with all three sources raising, [get_latest_prices] returns an
    empty Series. No error naming the failed providers reaches the caller. *)
Lemma all_sources_fail_counterexample :
  get_historical_data all_fail_env 0 polygon_yahoo_manager ["AAPL"]
    "2024-01-02" "2024-06-28" "1Day" None =
    (Ret [], incr_misses (incr_misses polygon_yahoo_manager)) /\
  get_latest_prices all_fail_env all_sources_manager ["AAPL"] None = Ret [].
Proof. split; vm_compute; reflexivity. Qed.

(** C3 (amended). When every source raises, [get_historical_data] (for a
    request not served from the cache) returns an empty DataFrame and
    [get_latest_prices] returns an empty Series, as ordinary return values,
    whenever a source was selected at all (a forced source, or one of the
    auto-selected sources configured). No error listing the failures is
    produced. *)
Theorem all_sources_fail_return_empty (E : env) (now : Z) (m : manager)
    (symbols : list string) (start end_ timeframe : string) (source : option string) :
  ((forall f, is_raise (env_hist E f symbols start end_ timeframe) = true) ->
   (enable_caching m = false \/
    fst (load_from_cache (hist_cache_key symbols start end_ timeframe)
           hist_max_age_hours now m) = None) ->
   (truthy source <> None \/ source_available m "polygon" = true \/
    source_available m "yahoo" = true) ->
   fst (get_historical_data E now m symbols start end_ timeframe source) = Ret []) /\
  ((forall f, is_raise (env_prices E f symbols) = true) ->
   (truthy source <> None \/ source_available m "alpaca" = true \/
    source_available m "polygon" = true \/ source_available m "yahoo" = true) ->
   get_latest_prices E m symbols source = Ret []).
Proof.
  split.
  - intros Hall Hmiss Hsrc. unfold get_historical_data.
    apply get_historical_data_go_failure_result; assumption.
  - intros Hall Hsrc. apply get_latest_prices_failure_result; assumption.
Qed.

Lemma all_sources_fail_return_empty_witness :
  (forall f, is_raise (env_hist all_fail_env f ["AAPL"] "2024-01-02" "2024-06-28" "1Day")
             = true) /\
  source_available polygon_yahoo_manager "polygon" = true /\
  fst (get_historical_data all_fail_env 0 polygon_yahoo_manager ["AAPL"]
         "2024-01-02" "2024-06-28" "1Day" None) = Ret [] /\
  (forall f, is_raise (env_prices all_fail_env f ["AAPL"]) = true) /\
  source_available all_sources_manager "alpaca" = true /\
  get_latest_prices all_fail_env all_sources_manager ["AAPL"] None = Ret [].
Proof.
  split; [intros f; reflexivity|]. split; [vm_compute; reflexivity|]. split.
  { apply (proj1 (all_sources_fail_return_empty all_fail_env 0 polygon_yahoo_manager
                    ["AAPL"] "2024-01-02" "2024-06-28" "1Day" None)).
    - intros f; reflexivity.
    - right. vm_compute. reflexivity.
    - right. left. vm_compute. reflexivity. }
  split; [intros f; reflexivity|]. split; [vm_compute; reflexivity|].
  apply (proj2 (all_sources_fail_return_empty all_fail_env 0 all_sources_manager ["AAPL"]
                  "2024-01-02" "2024-06-28" "1Day" None)).
  - intros f; reflexivity.
  - right. left. vm_compute. reflexivity.
Defined.

(** ** C2, C5, C6, C7: the Polygon request loop *)

Module PolygonFacts.
Import Polygon.

Lemma count_gets_app (l1 l2 : list event) :
  count_gets (l1 ++ l2) = (count_gets l1 + count_gets l2)%nat.
Proof. unfold count_gets. now rewrite filter_app, length_app. Qed.

Ltac unfold_st :=
  unfold mbind, St_bind, mret, St_ret, session_get, time_now, record_call,
    modify, sleep, log, set_timestamps in *.

(** Each pass of the loop issues at most one [session.get]. *)
Lemma attempt_loop_gets (retries attempt rem : nat) (s : sim) :
  exists new, trace (snd (attempt_loop retries attempt rem s)) = trace s ++ new /\
              (count_gets new <= rem)%nat.
Proof.
  revert attempt s. induction rem as [|rem IH]; intros attempt s.
  - exists []. unfold_st. simpl. split; [now rewrite app_nil_r | reflexivity].
  - cbn [attempt_loop]. unfold_st. destruct s as [c tr ts up trc]. simpl.
    repeat case_match; simplify_eq/=;
    first
      [ match goal with
        | |- context [attempt_loop ?r ?a ?n ?s'] =>
            destruct (IH a s') as (new & Hn & Hc); rewrite Hn; simpl
        end;
        eexists; split; [rewrite <- !app_assoc; reflexivity|];
        rewrite !count_gets_app; simpl; lia
      | eexists; split; [reflexivity|]; unfold count_gets; simpl; lia ].
Qed.

(** [_enforce_rate_limit] issues no HTTP attempt. *)
Lemma enforce_rate_limit_no_get (s : sim) :
  exists new, trace (snd (enforce_rate_limit s)) = trace s ++ EvAdmit (clock s) :: new /\
              count_gets new = 0%nat.
Proof.
  unfold enforce_rate_limit. unfold_st. destruct s as [c t ts up tr]. simpl.
  repeat case_match; simplify_eq/=;
    first [ exists []; split; [reflexivity | reflexivity]
          | eexists; split; [rewrite <- app_assoc; reflexivity | reflexivity] ].
Qed.

(** C6. [_make_request(url, params, retries)] always returns, after at
    most [retries] HTTP attempts, whatever the upstream answers. *)
Theorem make_request_at_most_retries_attempts (retries : nat) (s : sim) :
  exists new, trace (snd (make_request retries s)) = trace s ++ new /\
              (count_gets new <= retries)%nat.
Proof.
  unfold make_request. unfold mbind at 1, St_bind at 1.
  destruct (enforce_rate_limit s) as [u s1] eqn:He.
  destruct (enforce_rate_limit_no_get s) as (new1 & Ht1 & Hc1).
  rewrite He in Ht1. simpl in Ht1.
  destruct (attempt_loop_gets retries 0 retries s1) as (new2 & Ht2 & Hc2).
  exists ((EvAdmit (clock s) :: new1) ++ new2). split.
  - rewrite Ht2, Ht1. simpl. now rewrite <- app_assoc.
  - change (EvAdmit (clock s) :: new1) with ([EvAdmit (clock s)] ++ new1).
    rewrite !count_gets_app.
    assert (count_gets [EvAdmit (clock s)] = 0%nat) by reflexivity. lia.
Qed.

(** A pass of the loop with attempts left starts with a [session.get]. *)
Lemma attempt_loop_starts_with_get (retries attempt rem : nat) (s : sim) :
  exists new, trace (snd (attempt_loop retries attempt (S rem) s)) =
              trace s ++ EvGet (clock s) :: new.
Proof.
  cbn [attempt_loop]. unfold_st. destruct s as [c t ts up tr]. simpl.
  repeat case_match; simplify_eq/=;
  first
    [ match goal with
      | |- context [attempt_loop ?r ?a ?n ?s'] =>
          destruct (attempt_loop_gets r a n s') as (new & Hn & _); rewrite Hn; simpl
      end;
      eexists; rewrite <- !app_assoc; reflexivity
    | exists []; reflexivity ].
Qed.

(** C7. The loop's answer to each status: 429 waits a fixed 60 s and
    moves to the next attempt; a 5xx waits 2^attempt s (doubling with each
    attempt) and moves to the next attempt; any other 4xx returns [None]
    at once, with no wait and no further attempt. A next attempt, when one
    is left, starts with a new [session.get]. *)
Theorem attempt_loop_status_policy (retries attempt rem : nat) (s : sim)
    (code : Z) (json : option string) (rest : list response) :
  upstream s = Resp code json :: rest ->
  (code = 429 ->
   attempt_loop retries attempt (S rem) s =
   attempt_loop retries (S attempt) rem
     (mk_sim (clock s + 60000) (tier s) (call_timestamps s ++ [clock s]) rest
             (trace s ++ [EvGet (clock s); EvSleep 60000]))) /\
  (500 <= code ->
   attempt_loop retries attempt (S rem) s =
   attempt_loop retries (S attempt) rem
     (mk_sim (clock s + 1000 * 2 ^ Z.of_nat attempt) (tier s)
             (call_timestamps s ++ [clock s]) rest
             (trace s ++ [EvGet (clock s); EvSleep (1000 * 2 ^ Z.of_nat attempt)]))) /\
  (400 <= code < 500 -> code <> 429 ->
   attempt_loop retries attempt (S rem) s =
   (None, mk_sim (clock s) (tier s) (call_timestamps s ++ [clock s]) rest
                 (trace s ++ [EvGet (clock s)]))) /\
  (forall a r' (s' : sim), exists new,
     trace (snd (attempt_loop retries a (S r') s')) = trace s' ++ EvGet (clock s') :: new).
Proof.
  intros Hup. destruct s as [c t ts up tr]. simpl in Hup. subst up.
  split; [|split; [|split]].
  - intros ->. cbn [attempt_loop]. unfold_st. simpl.
    rewrite <- app_assoc. reflexivity.
  - intros Hc. cbn [attempt_loop]. unfold_st. simpl.
    repeat case_bool_decide; try lia. simpl. rewrite <- app_assoc. reflexivity.
  - intros Hc Hne. cbn [attempt_loop]. unfold_st. simpl.
    repeat case_bool_decide; try lia. reflexivity.
  - intros a r' s'. apply attempt_loop_starts_with_get.
Qed.

Lemma attempt_loop_status_policy_witness :
  let s := mk_sim 0 "free" [] [Resp 429 None; Resp 200 (Some "{}")] [] in
  upstream s = Resp 429 None :: [Resp 200 (Some "{}")] /\
  attempt_loop 3 0 3 s =
  attempt_loop 3 1 2 (mk_sim 60000 "free" [0] [Resp 200 (Some "{}")]
                             [EvGet 0; EvSleep 60000]).
Proof.
  intros s. split; [reflexivity|].
  apply (attempt_loop_status_policy 3 0 2 s 429 None [Resp 200 (Some "{}")]);
    reflexivity.
Defined.

(** C5 (code_bug). One request whose first attempt gets HTTP 500 and
    whose retry gets 200: [_enforce_rate_limit] runs once, before the loop,
    and the retry is issued without an admission check of its own. *)
Theorem make_request_retry_skips_admission :
  let s0 := mk_sim 0 "free" [] [Resp 500 None; Resp 200 (Some "{}")] [] in
  make_request 3 s0 =
    (Some "{}"%string,
     mk_sim 1000 "free" [0; 1000] [] [EvAdmit 0; EvGet 0; EvSleep 1000; EvGet 1000]) /\
  count_admits (trace (snd (make_request 3 s0))) = 1%nat /\
  count_gets (trace (snd (make_request 3 s0))) = 2%nat.
Proof. vm_compute. repeat split. Qed.

(** C2 (code_bug). Free tier (5 calls per minute), no earlier calls, two
    requests whose six attempts all get HTTP 500: six call timestamps,
    0 s to 10 s, are recorded inside one 60-second window. *)
Theorem rate_window_exceeded_by_retries :
  let s0 := mk_sim 0 "free" [] (repeat (Resp 500 None) 6) [] in
  let s2 := snd (make_request 3 (snd (make_request 3 s0))) in
  call_timestamps s2 = [0; 1000; 3000; 7000; 8000; 10000] /\
  clock s2 = 14000 /\
  window_count s2 = 6%nat /\
  Z.of_nat (window_count s2) > calls_per_minute s2.
Proof. vm_compute. repeat split. Qed.

End PolygonFacts.

(* ================================================================== *)
(** * Further properties of the data manager *)

Module ManagerFacts.



Lemma load_from_cache_miss_absent (key : string) (h : Q) (now : Z) (m : manager) :
  fst (load_from_cache key h now m) = None ->
  cache_files (snd (load_from_cache key h now m)) !! cache_path key = None.
Proof.
  unfold load_from_cache. destruct (cache_files m !! cache_path key) eqn:Hr; simpl.
  - destruct (Qle_bool _ _); simpl; [discriminate|]. intros _. apply lookup_delete_eq.
  - intros _. exact Hr.
Qed.

Lemma load_from_cache_hit_state (key : string) (h : Q) (now : Z) (m : manager) d :
  fst (load_from_cache key h now m) = Some d -> load_from_cache key h now m = (Some d, m).
Proof.
  unfold load_from_cache. destruct (cache_files m !! cache_path key); simpl; [|discriminate].
  destruct (Qle_bool _ _); simpl; [|discriminate]. intros H; now injection H as ->.
Qed.

(** A historical request served from the cache returns the stored data,
    counts one hit and changes nothing else; no feed is called (the
    result does not depend on the feeds' behaviour). *)
Theorem get_historical_data_cache_hit (E : env) (now : Z) (m : manager)
    (symbols : list string) (start end_ timeframe : string) (source : option string)
    (d : DataFrame) :
  enable_caching m = true ->
  fst (load_from_cache (hist_cache_key symbols start end_ timeframe)
         hist_max_age_hours now m) = Some d ->
  get_historical_data E now m symbols start end_ timeframe source = (Ret d, incr_hits m).
Proof.
  intros Hc Hl. unfold get_historical_data. cbn [get_historical_data_go].
  rewrite Hc, (load_from_cache_hit_state _ _ _ _ _ Hl). reflexivity.
Qed.

Lemma get_historical_data_cache_hit_witness :
  let m := save_to_cache (hist_cache_key ["AAPL"] "2024-01-02" "2024-06-28" "1Day")
             [mk_bar "AAPL" 0 190] 0 polygon_yahoo_manager in
  fst (load_from_cache (hist_cache_key ["AAPL"] "2024-01-02" "2024-06-28" "1Day")
         hist_max_age_hours 1000 m) = Some [mk_bar "AAPL" 0 190] /\
  get_historical_data all_fail_env 1000 m ["AAPL"] "2024-01-02" "2024-06-28" "1Day" None
    = (Ret [mk_bar "AAPL" 0 190], incr_hits m).
Proof.
  intros m. split; [vm_compute; reflexivity|].
  apply get_historical_data_cache_hit; vm_compute; reflexivity.
Defined.


Lemma load_from_cache_counters key h now m :
  cache_hits (snd (load_from_cache key h now m)) = cache_hits m /\
  cache_misses (snd (load_from_cache key h now m)) = cache_misses m.
Proof.
  unfold load_from_cache. destruct (cache_files m !! _); [|auto].
  destruct (Qle_bool _ _); auto.
Qed.

Lemma load_from_cache_absent key h now m :
  cache_files m !! cache_path key = None -> load_from_cache key h now m = (None, m).
Proof. unfold load_from_cache. now intros ->. Qed.



(** When the cache misses and Polygon raises while Yahoo is available,
    the request is counted as two misses: the failover goes through the
    whole method again, cache check included. The result is Yahoo's
    answer, or an empty frame if Yahoo raises too. *)
Theorem get_historical_data_failover_counts_two_misses (E : env) (now : Z) (m : manager)
    (symbols : list string) (start end_ timeframe : string) (fp fy : feed) (e : exn) :
  (enable_caching m = false \/
   fst (load_from_cache (hist_cache_key symbols start end_ timeframe)
          hist_max_age_hours now m) = None) ->
  source_get m "polygon" = Some fp -> source_get m "yahoo" = Some fy ->
  env_hist E fp symbols start end_ timeframe = Raise e ->
  let '(r, m') := get_historical_data E now m symbols start end_ timeframe None in
  cache_misses m' = cache_misses m + 2 /\ cache_hits m' = cache_hits m /\
  r = match env_hist E fy symbols start end_ timeframe with
      | Ret d => Ret d | Raise _ => Ret [] end.
Proof.
  intros Hmiss Hp Hy Hf.
  set (key := hist_cache_key symbols start end_ timeframe) in *.
  unfold get_historical_data. cbn [get_historical_data_go]. fold key.
  destruct (if enable_caching m then load_from_cache key hist_max_age_hours now m
            else (None, m)) as [c m1] eqn:Hl.
  destruct (cache_check_facts _ _ _ _ _ Hl) as (_ & Hs & He & _).
  assert (Hc : c = None /\ cache_hits m1 = cache_hits m /\ cache_misses m1 = cache_misses m).
  { destruct (enable_caching m) eqn:Hce.
    - destruct Hmiss as [Hmiss|Hmiss]; [discriminate|].
      pose proof (load_from_cache_counters key hist_max_age_hours now m) as [Hh Hm].
      rewrite Hl in Hmiss, Hh, Hm. simpl in *. auto.
    - injection Hl as <- <-. auto. }
  destruct Hc as (-> & Hh1 & Hm1). cbv beta iota. unfold truthy.
  assert (Hsrc : forall n, source_get (incr_misses m1) n = source_get m n)
    by (intros n; unfold source_get; simpl; now rewrite Hs).
  unfold source_available. rewrite !Hsrc, Hp, Hy. cbv beta iota.
  unfold call_source. simpl. rewrite Hs.
  unfold source_get in Hp. destruct (sources m !! "polygon") as [[fp'|]|]; try discriminate.
  injection Hp as ->. rewrite Hf. cbn [String.eqb Ascii.eqb Bool.eqb andb].
  (* the failover call: get_historical_data_go 0 with source "yahoo" *)
  cbn [get_historical_data_go]. fold key.
  set (m2 := incr_misses m1).
  assert (Hmiss2 : forall c' m3,
            (if enable_caching m2 then load_from_cache key hist_max_age_hours now m2
             else (None, m2)) = (c', m3) ->
            c' = None /\ sources m3 = sources m /\ cache_hits m3 = cache_hits m /\
            cache_misses m3 = cache_misses m + 1 /\ enable_caching m3 = enable_caching m).
  { intros c' m3 Hl2. destruct (enable_caching m2) eqn:He2.
    - destruct (enable_caching m) eqn:Hce; [|subst m2; simpl in He2; congruence].
      destruct Hmiss as [Hmiss|Hmiss]; [discriminate|].
      pose proof (load_from_cache_miss_absent _ _ _ _ Hmiss) as Habs.
      rewrite Hl in Habs. simpl in Habs.
      rewrite load_from_cache_absent in Hl2 by (subst m2; exact Habs).
      injection Hl2 as <- <-. subst m2. simpl. repeat split; auto; lia.
    - injection Hl2 as <- <-. subst m2. simpl. repeat split; auto; lia. }
  destruct (if enable_caching m2 then _ else _) as [c' m3] eqn:Hl2.
  destruct (Hmiss2 _ _ eq_refl) as (-> & Hs3 & Hh3 & Hm3 & He3). cbv beta iota.
  simpl. unfold call_source. simpl. rewrite Hs3.
  unfold source_get in Hy. destruct (sources m !! "yahoo") as [[fy'|]|]; try discriminate.
  injection Hy as ->.
  destruct (env_hist E fy symbols start end_ timeframe) as [d|e'].
  - destruct (enable_caching m3 && negb (df_empty d)).
    + unfold save_to_cache. destruct (cache_dir_exists (incr_misses m3)); simpl;
        (split; [lia|]; split; [lia|reflexivity]).
    + simpl. split; [lia|]. split; [lia|reflexivity].
  - cbn [String.eqb Ascii.eqb Bool.eqb andb]. simpl. split; [lia|]. split; [lia|reflexivity].
Qed.

Lemma get_historical_data_failover_counts_two_misses_witness :
  let '(r, m') := get_historical_data all_fail_env 0 polygon_yahoo_manager ["AAPL"]
                    "2024-01-02" "2024-06-28" "1Day" None in
  cache_misses m' = cache_misses polygon_yahoo_manager + 2 /\
  cache_hits m' = cache_hits polygon_yahoo_manager /\
  r = match env_hist all_fail_env YahooFeed ["AAPL"] "2024-01-02" "2024-06-28" "1Day" with
      | Ret d => Ret d | Raise _ => Ret [] end.
Proof.
  apply (get_historical_data_failover_counts_two_misses all_fail_env 0 polygon_yahoo_manager
           ["AAPL"] "2024-01-02" "2024-06-28" "1Day" PolygonFeed YahooFeed
           (FeedError "HTTP 500")).
  - right. vm_compute. reflexivity.
  - vm_compute. reflexivity.
  - vm_compute. reflexivity.
  - reflexivity.
Defined.

(** With Polygon configured, a failing options request (cache miss or
    caching off) returns an empty frame, counts one miss and writes no
    cache file: every file present afterwards was present before, with
    the same content. *)
Theorem get_options_chain_failure (E : env) (now : Z) (m : manager) (underlying : string)
    (expiration strike otype : option string) (fp : feed) (e : exn) :
  source_get m "polygon" = Some fp ->
  (enable_caching m = false \/
   fst (load_from_cache (options_cache_key underlying expiration strike otype)
          options_max_age_hours now m) = None) ->
  env_options E fp underlying (py_str_opt expiration) (py_str_opt strike)
    (py_str_opt otype) = Raise e ->
  let '(r, m') := get_options_chain E now m underlying expiration strike otype in
  r = Ret [] /\ cache_misses m' = cache_misses m + 1 /\ cache_hits m' = cache_hits m /\
  forall p rec, cache_files m' !! p = Some rec -> cache_files m !! p = Some rec.
Proof.
  intros Hp Hmiss Hf. unfold get_options_chain. rewrite Hp.
  set (key := options_cache_key underlying expiration strike otype) in *.
  destruct (if enable_caching m then load_from_cache key options_max_age_hours now m
            else (None, m)) as [c m1] eqn:Hl.
  assert (H1 : c = None /\ sources m1 = sources m /\ cache_hits m1 = cache_hits m /\
               cache_misses m1 = cache_misses m /\
               forall p rec, cache_files m1 !! p = Some rec -> cache_files m !! p = Some rec).
  { destruct (enable_caching m) eqn:Hce.
    - destruct Hmiss as [Hmiss|Hmiss]; [discriminate|].
      pose proof (load_from_cache_counters key options_max_age_hours now m) as [Hh Hm].
      pose proof (load_from_cache_sources key options_max_age_hours now m) as Hs.
      rewrite Hl in Hmiss, Hh, Hm, Hs. simpl in *.
      split; [exact Hmiss|]. repeat split; auto.
      unfold load_from_cache in Hl.
      destruct (cache_files m !! _) as [r0|]; [|injection Hl as <- <-; auto].
      destruct (Qle_bool _ _); injection Hl as <- <-; simpl; [auto|].
      intros p rec Hrec. apply lookup_delete_Some in Hrec. apply Hrec.
    - injection Hl as <- <-. auto. }
  destruct H1 as (-> & Hs & Hh & Hm & Hfiles). cbv beta iota.
  unfold call_source. simpl. rewrite Hs.
  unfold source_get in Hp. destruct (sources m !! "polygon") as [[fp'|]|]; try discriminate.
  injection Hp as ->. rewrite Hf. simpl.
  split; [reflexivity|]. split; [lia|]. split; [lia|]. exact Hfiles.
Qed.

Lemma get_options_chain_failure_witness :
  let '(r, m') := get_options_chain all_fail_env 0 polygon_yahoo_manager "SPY"
                    (Some "2024-12-20"%string) None (Some "call"%string) in
  r = Ret [] /\ cache_misses m' = cache_misses polygon_yahoo_manager + 1 /\
  cache_hits m' = cache_hits polygon_yahoo_manager /\
  forall p rec, cache_files m' !! p = Some rec -> cache_files polygon_yahoo_manager !! p = Some rec.
Proof.
  apply (get_options_chain_failure all_fail_env 0 polygon_yahoo_manager "SPY"
           (Some "2024-12-20"%string) None (Some "call"%string) PolygonFeed
           (FeedError "HTTP 500")).
  - vm_compute. reflexivity.
  - right. vm_compute. reflexivity.
  - reflexivity.
Defined.

(** With Polygon configured, a crypto record stored at most one hour
    earlier is served from the cache: one hit is counted, nothing else
    changes, and the feed is not called. *)
Theorem get_crypto_data_cache_hit (C : crypto_env) (now t0 : Z) (m : manager)
    (from_currency to_currency start end_ timeframe : string) (fp : feed) (d : DataFrame) :
  source_get m "polygon" = Some fp -> enable_caching m = true ->
  cache_files m !! cache_path (crypto_cache_key from_currency to_currency start end_ timeframe)
    = Some (mk_cache_record d t0) ->
  (age_hours now t0 <= crypto_max_age_hours)%Q ->
  get_crypto_data C now m from_currency to_currency start end_ timeframe = (Ret d, incr_hits m).
Proof.
  intros Hp Hc Hr Hage. unfold get_crypto_data. rewrite Hp, Hc.
  unfold load_from_cache. rewrite Hr. simpl.
  apply Qle_bool_iff in Hage. now rewrite Hage.
Qed.

Lemma get_crypto_data_cache_hit_witness :
  let m := save_to_cache (crypto_cache_key "BTC" "USD" "2024-01-02" "2024-06-28" "1Hour")
             [mk_bar "X:BTCUSD" 0 60000] 0 polygon_yahoo_manager in
  get_crypto_data (fun _ _ _ _ _ _ => Raise (FeedError "HTTP 500")) micros_per_hour m
    "BTC" "USD" "2024-01-02" "2024-06-28" "1Hour" = (Ret [mk_bar "X:BTCUSD" 0 60000], incr_hits m).
Proof.
  intros m. apply (get_crypto_data_cache_hit _ micros_per_hour 0 m "BTC" "USD"
                     "2024-01-02" "2024-06-28" "1Hour" PolygonFeed).
  - vm_compute. reflexivity.
  - reflexivity.
  - vm_compute. reflexivity.
  - vm_compute. discriminate.
Defined.

(** The hit rate of [get_cache_stats] is a proportion: between 0 and 1
    for nonnegative counters, and 0 before any request. *)
Theorem cache_hit_rate_bounds (m : manager) :
  0 <= cache_hits m -> 0 <= cache_misses m ->
  (0 <= cache_hit_rate m <= 1)%Q /\
  (cache_hits m + cache_misses m = 0 -> cache_hit_rate m = 0%Q).
Proof.
  intros Hh Hm. unfold cache_hit_rate.
  destruct (Z.ltb_spec 0 (cache_hits m + cache_misses m)) as [Hlt|Hle].
  - split; [|lia].
    set (h := cache_hits m) in *. set (t := cache_hits m + cache_misses m) in *.
    assert (Ht : (0 < inject_Z t)%Q) by (unfold Qlt; simpl; lia).
    split.
    + apply Qle_shift_div_l; [exact Ht|]. rewrite Qmult_0_l. unfold Qle; simpl; lia.
    + apply Qle_shift_div_r; [exact Ht|]. rewrite Qmult_1_l. rewrite <- Zle_Qle. lia.
  - split; [split; discriminate|]. reflexivity.
Qed.

Lemma cache_hit_rate_bounds_witness :
  let m := mk_manager true true ∅ ∅ 3 1 in
  (0 <= cache_hit_rate m <= 1)%Q /\ (cache_hits m + cache_misses m = 0 -> cache_hit_rate m = 0%Q).
Proof. intros m. apply cache_hit_rate_bounds; simpl; lia. Defined.

Lemma source_get_slot (m : manager) (n : string) (f : feed) :
  source_get m n = Some f -> sources m !! n = Some (Some f).
Proof. unfold source_get. destruct (sources m !! n) as [[f'|]|]; congruence. Qed.

(** Hits are only counted for data actually found in the cache: starting
    from an empty cache directory (e.g. right after [clear_cache]), a
    historical request, failover included, counts no hit, whatever the
    feeds answer. *)
Lemma get_historical_data_go_empty_cache_no_hit (E : env) (now : Z) (fuel : nat)
    (m : manager) (symbols : list string) (start end_ timeframe : string)
    (source : option string) :
  cache_files m = ∅ ->
  cache_hits (snd (get_historical_data_go E now fuel m symbols start end_ timeframe source))
    = cache_hits m.
Proof.
  revert m source. induction fuel as [|fuel IH]; intros m source Hempty;
    cbn [get_historical_data_go].
  all: rewrite (load_from_cache_absent _ _ _ _ ltac:(rewrite Hempty; apply lookup_empty)).
  all: destruct (enable_caching m); cbv beta iota.
  all: destruct (match truthy source with Some s => Some s | None => _ end) as [sel|];
         [|reflexivity].
  all: destruct (call_source _ _ _) as [data|e].
  all: try (destruct (_ && negb _); [unfold save_to_cache; destruct (cache_dir_exists _)|];
            reflexivity).
  all: destruct (_ && _); [|reflexivity].
  all: first [reflexivity | rewrite IH; [reflexivity | simpl; exact Hempty]].
Qed.

Theorem clear_cache_then_no_hit (E : env) (now : Z) (m : manager)
    (symbols : list string) (start end_ timeframe : string) (source : option string) :
  cache_dir_exists m = true ->
  cache_hits (snd (get_historical_data E now (clear_cache m) symbols start end_ timeframe
                     source)) = cache_hits m.
Proof.
  intros Hd. unfold get_historical_data.
  rewrite get_historical_data_go_empty_cache_no_hit;
    unfold clear_cache; rewrite Hd; reflexivity.
Qed.

Lemma clear_cache_then_no_hit_witness :
  let m := save_to_cache (hist_cache_key ["AAPL"] "2024-01-02" "2024-06-28" "1Day")
             [mk_bar "AAPL" 0 190] 0 polygon_yahoo_manager in
  cache_dir_exists m = true /\
  cache_hits (snd (get_historical_data one_bar_env 1000 (clear_cache m) ["AAPL"]
                     "2024-01-02" "2024-06-28" "1Day" None)) = cache_hits m.
Proof.
  intros m. split; [reflexivity|]. apply clear_cache_then_no_hit. reflexivity.
Defined.

Lemma get_available_sources_elem (m : manager) (name : string) :
  name ∈ get_available_sources m <-> source_available m name = true.
Proof.
  unfold get_available_sources, source_available, source_get.
  rewrite list_elem_of_omap. split.
  - intros [[n slot] [Hin Hs]]. apply elem_of_map_to_list in Hin.
    destruct slot as [f|]; [|discriminate]. injection Hs as ->. now rewrite Hin.
  - destruct (sources m !! name) as [[f|]|] eqn:Hn; try discriminate. intros _.
    exists (name, Some f). split; [|reflexivity]. now apply elem_of_map_to_list.
Qed.

(** [__init__]: Alpaca is available only when both its key and its
    secret are given (non-empty) and its connection succeeds; Yahoo needs
    no credentials and is available unless its construction raises. *)
Theorem init_manager_available (E : env) (ak asec pk : option string) (ec : bool) :
  ("alpaca" ∈ get_available_sources (init_manager E ak asec pk ec) <->
     truthy ak <> None /\ truthy asec <> None /\ is_raise (env_init E "alpaca") = false) /\
  ("yahoo" ∈ get_available_sources (init_manager E ak asec pk ec) <->
     is_raise (env_init E "yahoo") = false).
Proof.
  split; rewrite get_available_sources_elem;
    unfold source_available, source_get, init_manager; simpl.
  - rewrite lookup_insert_ne by discriminate. rewrite lookup_insert_ne by discriminate.
    rewrite lookup_insert_eq. unfold init_slot.
    destruct (truthy ak), (truthy asec); simpl;
      try (split; [discriminate| intros (H1 & H2 & _); congruence]).
    destruct (env_init E "alpaca"); simpl; split; try discriminate; auto.
    intros (_ & _ & H); discriminate.
  - rewrite lookup_insert_eq. unfold init_slot.
    destruct (env_init E "yahoo"); simpl; split; auto.
Qed.

(** [get_latest_prices] with all three sources configured and no source
    requested: the first source that answers wins, in the order Alpaca,
    Polygon, Yahoo; if all three raise, the result is empty. *)
Theorem get_latest_prices_first_success (E : env) (m : manager) (symbols : list string)
    (fa fp fy : feed) :
  source_get m "alpaca" = Some fa -> source_get m "polygon" = Some fp ->
  source_get m "yahoo" = Some fy ->
  get_latest_prices E m symbols None =
    match env_prices E fa symbols with
    | Ret p => Ret p
    | Raise _ =>
      match env_prices E fp symbols with
      | Ret p => Ret p
      | Raise _ =>
        match env_prices E fy symbols with Ret p => Ret p | Raise _ => Ret [] end
      end
    end.
Proof.
  intros Ha Hp Hy. unfold get_latest_prices. cbn [get_latest_prices_go truthy].
  unfold source_available at 1. rewrite Ha. cbv beta iota.
  unfold call_source. rewrite (source_get_slot _ _ _ Ha).
  destruct (env_prices E fa symbols) as [pa|ea]; [reflexivity|].
  unfold source_available. rewrite Hp. cbn [String.eqb Ascii.eqb Bool.eqb andb].
  cbn [get_latest_prices_go truthy String.eqb Ascii.eqb Bool.eqb andb].
  rewrite (source_get_slot _ _ _ Hp).
  destruct (env_prices E fp symbols) as [pp|ep]; [reflexivity|].
  rewrite Hy. cbn [String.eqb Ascii.eqb Bool.eqb andb].
  cbn [get_latest_prices_go truthy String.eqb Ascii.eqb Bool.eqb andb].
  rewrite (source_get_slot _ _ _ Hy).
  destruct (env_prices E fy symbols); reflexivity.
Qed.

Lemma get_latest_prices_first_success_witness :
  get_latest_prices one_bar_env all_sources_manager ["AAPL"] None =
    match env_prices one_bar_env AlpacaFeed ["AAPL"] with
    | Ret p => Ret p
    | Raise _ =>
      match env_prices one_bar_env PolygonFeed ["AAPL"] with
      | Ret p => Ret p
      | Raise _ =>
        match env_prices one_bar_env YahooFeed ["AAPL"] with Ret p => Ret p | Raise _ => Ret [] end
      end
    end.
Proof. apply get_latest_prices_first_success; vm_compute; reflexivity. Defined.

(** The price failover is a chain of two steps, Alpaca to Polygon and
    Polygon to Yahoo: when Alpaca raises and Polygon is not configured,
    the result is an empty Series and Yahoo is not asked, even if it is
    configured. *)
Theorem get_latest_prices_alpaca_failure_skips_yahoo (E : env) (m : manager)
    (symbols : list string) (fa : feed) (e : exn) :
  source_get m "alpaca" = Some fa -> env_prices E fa symbols = Raise e ->
  source_get m "polygon" = None ->
  get_latest_prices E m symbols None = Ret [].
Proof.
  intros Ha Hf Hp. unfold get_latest_prices. cbn [get_latest_prices_go truthy].
  unfold source_available at 1. rewrite Ha. cbv beta iota.
  unfold call_source. rewrite (source_get_slot _ _ _ Ha), Hf.
  unfold source_available. rewrite Hp. reflexivity.
Qed.

Lemma get_latest_prices_alpaca_failure_skips_yahoo_witness :
  let E := mk_env (fun _ _ _ _ _ => Ret [])
                  (fun f _ => match f with
                              | YahooFeed => Ret [("AAPL", 190)]%string
                              | _ => Raise (FeedError "HTTP 500") end)
                  (fun _ _ _ _ _ => Ret []) (fun _ => Ret tt) in
  source_get alpaca_yahoo_manager "yahoo" = Some YahooFeed /\
  get_latest_prices E alpaca_yahoo_manager ["AAPL"] None = Ret [].
Proof.
  intros E. split; [vm_compute; reflexivity|].
  apply (get_latest_prices_alpaca_failure_skips_yahoo E alpaca_yahoo_manager ["AAPL"]
           AlpacaFeed (FeedError "HTTP 500")); vm_compute; reflexivity.
Defined.

Lemma save_to_cache_counters key data now m :
  cache_hits (save_to_cache key data now m) = cache_hits m /\
  cache_misses (save_to_cache key data now m) = cache_misses m.
Proof. unfold save_to_cache. destruct (cache_dir_exists m); auto. Qed.

Lemma cache_check_counters key now (m m1 : manager) (cached : option DataFrame) :
  (if enable_caching m then load_from_cache key hist_max_age_hours now m else (None, m))
    = (cached, m1) ->
  cache_hits m1 = cache_hits m /\ cache_misses m1 = cache_misses m.
Proof.
  intros Hl. destruct (enable_caching m).
  - pose proof (load_from_cache_counters key hist_max_age_hours now m) as H.
    rewrite Hl in H. exact H.
  - injection Hl as <- <-. auto.
Qed.

Lemma get_historical_data_go_counters (E : env) (now : Z) (fuel : nat) (m : manager)
    (symbols : list string) (start end_ timeframe : string) (source : option string) :
  let m' := snd (get_historical_data_go E now fuel m symbols start end_ timeframe source) in
  cache_hits m <= cache_hits m' /\ cache_misses m <= cache_misses m' /\
  cache_hits m + cache_misses m + 1 <= cache_hits m' + cache_misses m'
    <= cache_hits m + cache_misses m + 1 + Z.of_nat fuel.
Proof.
  revert m source. induction fuel as [|fuel IH]; intros m source; cbn [get_historical_data_go].
  all: destruct (if enable_caching m then _ else _) as [cached m1] eqn:Hl.
  all: destruct (cache_check_counters _ _ _ _ _ Hl) as [Hh Hm].
  all: destruct cached as [d|]; [simpl; lia|].
  all: destruct (match truthy source with Some s => Some s | None => _ end) as [sel|];
         [|simpl; lia].
  all: destruct (call_source _ _ _) as [data|e].
  all: try (destruct (_ && negb _);
            [pose proof (save_to_cache_counters (hist_cache_key symbols start end_ timeframe)
                           data now (incr_misses m1)) as [Hh' Hm']; simpl in *; lia
            | simpl; lia]).
  all: destruct (_ && _); [|simpl; lia].
  all: try (simpl; lia).
  all: match goal with
       | |- context [get_historical_data_go _ _ ?fl ?mm _ _ _ _ ?src] =>
           pose proof (IH mm src) as Hr
       end.
  all: simpl in *; lia.
Qed.

(** Accounting of one historical request: neither counter ever goes
    down, and the request adds one or two to [total_requests] of
    [get_cache_stats] (two when Polygon fails over to Yahoo, whose
    recursive call checks the cache again). *)
Theorem get_historical_data_counters (E : env) (now : Z) (m : manager)
    (symbols : list string) (start end_ timeframe : string) (source : option string) :
  let m' := snd (get_historical_data E now m symbols start end_ timeframe source) in
  cache_hits m <= cache_hits m' /\ cache_misses m <= cache_misses m' /\
  stat_total (get_cache_stats m) + 1 <= stat_total (get_cache_stats m')
    <= stat_total (get_cache_stats m) + 2.
Proof.
  pose proof (get_historical_data_go_counters E now 1 m symbols start end_ timeframe source)
    as H. unfold get_historical_data, get_cache_stats. simpl in *. lia.
Qed.

End ManagerFacts.

Module PolygonExtra.
Import Polygon.

Ltac unfold_st :=
  unfold mbind, St_bind, mret, St_ret, session_get, time_now, record_call,
    modify, sleep, log, set_timestamps in *.

Lemma rate_limits_ge_5 (t : string) : 5 <= rate_limits t.
Proof. unfold rate_limits. repeat case_match; lia. Qed.

Lemma fold_min_in (rest : list Z) (t0 : Z) : fold_left Z.min rest t0 ∈ t0 :: rest.
Proof.
  revert t0. induction rest as [|x rest IH]; intros t0; cbn [fold_left];
    [apply list_elem_of_singleton; reflexivity|].
  rewrite !elem_of_cons.
  destruct (proj1 (elem_of_cons _ _ _) (IH (Z.min t0 x))) as [->|Hy]; [|auto].
  destruct (Z.min_spec t0 x) as [[_ ->]|[_ ->]]; auto.
Qed.

Lemma window_filter_idem (c : Z) (l : list Z) :
  filter (in_window c) (filter (in_window c) l) = filter (in_window c) l.
Proof.
  induction l as [|x l IH]; [reflexivity|].
  rewrite filter_cons. case_decide; [rewrite filter_cons_True by assumption|]; congruence.
Qed.

Lemma window_mono (c c' : Z) (l : list Z) :
  c <= c' -> (length (filter (in_window c') l) <= length (filter (in_window c) l))%nat.
Proof.
  intros Hc. induction l as [|x l IH]; [reflexivity|].
  rewrite !filter_cons. unfold in_window in *.
  repeat case_decide; simpl; try lia.
  all: repeat match goal with
         | H : Is_true (bool_decide _) |- _ => apply bool_decide_unpack in H
         | H : ¬ Is_true (bool_decide _) |- _ => rewrite bool_decide_spec in H
         end; lia.
Qed.

(** [_enforce_rate_limit] keeps the timestamps of the last 60 s and, when
    the window held no more calls than the limit, leaves room for one. *)
Lemma enforce_rate_limit_room (s : sim) :
  let s' := snd (enforce_rate_limit s) in
  call_timestamps s' = filter (in_window (clock s)) (call_timestamps s) /\
  clock s <= clock s' /\ tier s' = tier s /\ upstream s' = upstream s /\
  (Z.of_nat (window_count s) <= calls_per_minute s ->
   Z.of_nat (window_count s') < calls_per_minute s').
Proof.
  unfold enforce_rate_limit, window_count, calls_per_minute. unfold_st.
  destruct s as [c t ts up tr]. simpl.
  pose proof (rate_limits_ge_5 t) as H5.
  set (w := filter (in_window c) ts).
  case_bool_decide as Hfull.
  - destruct w as [|t0 rest] eqn:Hw; [simpl in Hfull; lia|].
    set (oldest := fold_left Z.min rest t0).
    assert (Hin : oldest ∈ w) by (rewrite Hw; apply fold_min_in).
    assert (Hold : c - oldest < 60000).
    { unfold w in Hin. apply list_elem_of_filter in Hin as [Hp _].
      unfold in_window in Hp. apply bool_decide_unpack in Hp. exact Hp. }
    case_bool_decide; [|lia]. simpl.
    split; [reflexivity|]. split; [lia|]. split; [reflexivity|]. split; [reflexivity|].
    intros Hle. rewrite <- Hw.
    assert (Hlt : (length (filter (in_window (c + (60000 - (c - oldest) + 100))) w)
                   < length w)%nat).
    { apply (length_filter_lt _ _ oldest Hin). unfold in_window.
      rewrite bool_decide_spec. lia. }
    assert (Hlen : length w = S (length rest)) by (rewrite Hw; reflexivity). lia.
  - simpl. split; [reflexivity|]. split; [lia|]. split; [reflexivity|].
    split; [reflexivity|]. intros _. unfold w in *. rewrite window_filter_idem. lia.
Qed.

Lemma fold_min_le (rest : list Z) (t0 : Z) :
  forall t, t ∈ t0 :: rest -> fold_left Z.min rest t0 <= t.
Proof.
  revert t0. induction rest as [|x rest IH]; intros t0 t Ht; cbn [fold_left].
  - apply list_elem_of_singleton in Ht. lia.
  - apply elem_of_cons in Ht as [->|Ht].
    + pose proof (IH (Z.min t0 x) (Z.min t0 x) ltac:(apply elem_of_cons; left; reflexivity)).
      lia.
    + apply elem_of_cons in Ht as [->|Ht].
      * pose proof (IH (Z.min t0 x) (Z.min t0 x) ltac:(apply elem_of_cons; left; reflexivity)).
        lia.
      * apply IH. apply elem_of_cons. right. exact Ht.
Qed.

(** [_enforce_rate_limit] keeps only the timestamps of the last 60 s.
    When fewer calls than the limit are in that window it returns at once,
    with no sleep. When the window is full it sleeps until the oldest
    kept call has left the 60-second window, plus 100 ms: the clock
    afterwards is that call's time + 60 s + 100 ms. If the window held no
    more calls than the limit, there is then room for one more call. *)
Theorem enforce_rate_limit_sleeps_until_oldest_leaves (s : sim) :
  let s' := snd (enforce_rate_limit s) in
  call_timestamps s' = filter (in_window (clock s)) (call_timestamps s) /\
  (Z.of_nat (window_count s) < calls_per_minute s ->
   clock s' = clock s /\ trace s' = trace s ++ [EvAdmit (clock s)]) /\
  (calls_per_minute s <= Z.of_nat (window_count s) ->
   exists oldest,
     oldest ∈ call_timestamps s' /\ (forall t, t ∈ call_timestamps s' -> oldest <= t) /\
     clock s' = oldest + 60000 + 100 /\
     trace s' = trace s ++ [EvAdmit (clock s); EvSleep (clock s' - clock s)]) /\
  (Z.of_nat (window_count s) <= calls_per_minute s ->
   Z.of_nat (window_count s') < calls_per_minute s').
Proof.
  pose proof (enforce_rate_limit_room s) as (Hts & _ & _ & _ & Hroom).
  split; [exact Hts|]. split; [|split; [|exact Hroom]].
  - unfold enforce_rate_limit, window_count, calls_per_minute. unfold_st.
    destruct s as [c t ts up tr]. simpl. intros Hlt.
    case_bool_decide; [lia|]. simpl. split; reflexivity.
  - revert Hts. unfold enforce_rate_limit, window_count, calls_per_minute. unfold_st.
    destruct s as [c t ts up tr]. simpl. intros Hts Hfull.
    pose proof (rate_limits_ge_5 t) as H5.
    case_bool_decide as Hf; [|lia].
    destruct (filter (in_window c) ts) as [|t0 rest] eqn:Hw; [simpl in Hfull; lia|].
    set (oldest := fold_left Z.min rest t0).
    assert (Hin : oldest ∈ t0 :: rest) by apply fold_min_in.
    assert (Hold : c - oldest < 60000).
    { rewrite <- Hw in Hin. apply list_elem_of_filter in Hin as [Hp _].
      unfold in_window in Hp. apply bool_decide_unpack in Hp. exact Hp. }
    rewrite bool_decide_true by lia. simpl.
    exists oldest. split; [exact Hin|]. split; [apply fold_min_le|].
    split; [lia|]. rewrite <- !app_assoc. simpl. repeat f_equal. lia.
Qed.

Lemma enforce_rate_limit_sleeps_until_oldest_leaves_witness :
  let s := mk_sim 30000 "free" [0; 10000; 20000; 25000; 29000] [] [] in
  calls_per_minute s <= Z.of_nat (window_count s) /\
  exists oldest,
    oldest ∈ call_timestamps (snd (enforce_rate_limit s)) /\
    (forall t, t ∈ call_timestamps (snd (enforce_rate_limit s)) -> oldest <= t) /\
    clock (snd (enforce_rate_limit s)) = oldest + 60000 + 100 /\
    trace (snd (enforce_rate_limit s)) =
      trace s ++ [EvAdmit (clock s);
                  EvSleep (clock (snd (enforce_rate_limit s)) - clock s)].
Proof.
  intros s. assert (H : calls_per_minute s <= Z.of_nat (window_count s))
    by (vm_compute; discriminate).
  split; [exact H|].
  apply (proj1 (proj2 (proj2 (enforce_rate_limit_sleeps_until_oldest_leaves s))) H).
Defined.

Lemma attempt_loop_one (retries attempt : nat) (s : sim) :
  let s' := snd (attempt_loop retries attempt 1 s) in
  clock s <= clock s' /\ tier s' = tier s /\
  (call_timestamps s' = call_timestamps s \/
   call_timestamps s' = call_timestamps s ++ [clock s]).
Proof.
  pose proof (Z.pow_nonneg 2 (Z.of_nat attempt) ltac:(lia)) as Hp.
  cbn [attempt_loop]. unfold_st. destruct s as [c t ts up tr]. simpl.
  repeat case_match; simplify_eq/=;
    (split; [lia|]; split; [reflexivity|]; first [left; reflexivity | right; reflexivity]).
Qed.

(** With a single attempt per request ([retries = 1]), [_make_request]
    keeps the number of calls of the last 60 s within the tier's limit:
    the admission check leaves room for one call, and only one is made.
    (With more attempts the retries are not re-admitted; see C2.) *)
Theorem make_request_single_attempt_keeps_limit (s : sim) :
  Z.of_nat (window_count s) <= calls_per_minute s ->
  Z.of_nat (window_count (snd (make_request 1 s))) <= calls_per_minute (snd (make_request 1 s)).
Proof.
  intros Hw. unfold make_request. unfold mbind, St_bind.
  pose proof (enforce_rate_limit_room s) as (_ & _ & Ht1 & _ & Hroom).
  destruct (enforce_rate_limit s) as [u s1] eqn:He. simpl in Ht1, Hroom.
  specialize (Hroom Hw).
  pose proof (attempt_loop_one 1 0 s1) as (Hc & Ht2 & Hts).
  cbv beta iota.
  destruct (attempt_loop 1 0 1 s1) as [res s2]. cbn [snd] in Hc, Ht2, Hts |- *.
  unfold window_count, calls_per_minute in *. rewrite Ht2.
  pose proof (window_mono (clock s1) (clock s2) (call_timestamps s1) Hc) as Hm.
  destruct Hts as [-> | ->].
  - lia.
  - rewrite filter_app, length_app.
    assert (length (filter (in_window (clock s2)) [clock s1]) <= 1)%nat
      by apply (length_filter _ [clock s1]).
    lia.
Qed.

Lemma make_request_single_attempt_keeps_limit_witness :
  let s := mk_sim 30000 "free" [0; 10000; 20000; 25000; 29000] [Resp 500 None] [] in
  Z.of_nat (window_count s) <= calls_per_minute s /\
  Z.of_nat (window_count (snd (make_request 1 s))) <=
    calls_per_minute (snd (make_request 1 s)).
Proof.
  intros s. assert (H : Z.of_nat (window_count s) <= calls_per_minute s) by (vm_compute; discriminate).
  split; [exact H|]. apply (make_request_single_attempt_keeps_limit s). exact H.
Defined.

(** The last attempt ([attempt = retries - 1]): a transport error ends
    the loop at once, with no sleep, while a 429 still sleeps 60 s and a
    5xx still sleeps 2^attempt s before the loop gives up with [None];
    both responses are recorded as calls. *)
Theorem attempt_loop_last_attempt (a : nat) (s : sim) (rest : list response) :
  (upstream s = TransportError :: rest ->
   attempt_loop (S a) a 1 s =
   (None, mk_sim (clock s) (tier s) (call_timestamps s) rest (trace s ++ [EvGet (clock s)]))) /\
  (forall json, upstream s = Resp 429 json :: rest ->
   attempt_loop (S a) a 1 s =
   (None, mk_sim (clock s + 60000) (tier s) (call_timestamps s ++ [clock s]) rest
                 (trace s ++ [EvGet (clock s); EvSleep 60000]))) /\
  (forall code json, 500 <= code -> upstream s = Resp code json :: rest ->
   attempt_loop (S a) a 1 s =
   (None, mk_sim (clock s + 1000 * 2 ^ Z.of_nat a) (tier s) (call_timestamps s ++ [clock s])
                 rest (trace s ++ [EvGet (clock s); EvSleep (1000 * 2 ^ Z.of_nat a)]))).
Proof.
  destruct s as [c t ts up tr]. simpl.
  split; [|split].
  - intros ->. cbn [attempt_loop]. unfold_st. simpl.
    case_bool_decide; [lia|]. reflexivity.
  - intros json ->. cbn [attempt_loop]. unfold_st. simpl.
    repeat case_bool_decide; try lia. simpl. rewrite <- app_assoc. reflexivity.
  - intros code json Hc ->. cbn [attempt_loop]. unfold_st. simpl.
    repeat case_bool_decide; try lia. simpl. rewrite <- app_assoc. reflexivity.
Qed.

Lemma attempt_loop_last_attempt_witness :
  let s := mk_sim 0 "free" [] [TransportError] [] in
  upstream s = TransportError :: [] /\
  attempt_loop 3 2 1 s = (None, mk_sim 0 "free" [] [] [EvGet 0]).
Proof.
  intros s. split; [reflexivity|].
  apply (proj1 (attempt_loop_last_attempt 2 s [])). reflexivity.
Defined.

End PolygonExtra.
